(** * nest-formdata: the FileData descriptor and its [save] method

    A shallow embedding of [src/classes/FileData.ts] together with the
    collaborators the README documents ([IFileSaver], [DefaultFileSaver],
    the validation decorators), and the properties of the descriptor that
    follow from the class as it is written. *)

From Stdlib Require Import ZArith Ascii String.
From Stdlib.Strings Require Import Byte.
From Stdlib Require Decimal DecimalString DecimalPos DecimalZ.
From stdpp Require Import base strings list gmap.

Open Scope string_scope.

(** ** Data model *)

(** [MimeType] is imported from [../interfaces/file.interface]; it is a
    string-valued enumeration with the raw string as a fallback, so a MIME
    type is carried as the string itself. *)
Definition MimeType : Type := string.

(** A Node [Buffer] is a sequence of bytes. *)
Definition Buffer : Type := list byte.

(** The byte length of a buffer ([buffer.length]). *)
Definition byteLength (b : Buffer) : Z := Z.of_nat (length b).

(** [class FileData]: eight public fields, all of them constructor
    parameter properties.  [fileSize] is a JS [number] holding a byte
    count; it is carried as an integer, negative values included, since
    the constructor accepts them. *)
Record FileData : Type := mkFileData {
  originalFileName : string;
  fileName : string;
  fileNameFull : string;
  encoding : string;
  mimetype : MimeType;
  fileExtension : string;
  fileSize : Z;
  buffer : Buffer
}.

(** [new FileData(...)]: the constructor body is empty; each parameter
    property is assigned to the field of the same name. *)
Definition FileData_new
    (originalFileName' fileName' fileNameFull' encoding' : string)
    (mimetype' : MimeType) (fileExtension' : string)
    (fileSize' : Z) (buffer' : Buffer) : FileData :=
  {| originalFileName := originalFileName';
     fileName := fileName';
     fileNameFull := fileNameFull';
     encoding := encoding';
     mimetype := mimetype';
     fileExtension := fileExtension';
     fileSize := fileSize';
     buffer := buffer' |}.

(** ** Effects *)

(** Modelled from the spec: the host framework's [ExecutionContext] is an
    external type; only the route it exposes is kept. *)
Record ExecutionContext : Type := mkContext { route : string }.

(** Modelled from the spec: the error taxonomy of section 7. *)
Inductive Error : Type :=
| ParseError (msg : string)
| PayloadTooLargeError (msg : string)
| PersistenceError (msg : string).

(** The world outside a descriptor: the storage that file savers write
    to (path to content), and the log of file-saver invocations, most
    recent first.  Savers see the storage only; the log is kept by
    [invoke]. *)
Record World : Type := mkWorld {
  disk : gmap string Buffer;
  invocations : list (FileData * ExecutionContext)
}.

(** How a call completes: it returns a value or throws. *)
Inductive Completion (A : Type) : Type :=
| Normal (a : A)
| Throw (e : Error).
Arguments Normal {A} a.
Arguments Throw {A} e.

(** A computation over a state [S] that may throw. *)
Definition Eff (S A : Type) : Type := S -> Completion A * S.

Definition ret {S A : Type} (a : A) : Eff S A := fun s => (Normal a, s).

Definition throw {S A : Type} (e : Error) : Eff S A := fun s => (Throw e, s).

(** Sequencing: a throw in [m] skips [k]. *)
Definition bind {S A B : Type} (m : Eff S A) (k : A -> Eff S B) : Eff S B :=
  fun s =>
    match m s with
    | (Normal a, s') => k a s'
    | (Throw e, s') => (Throw e, s')
    end.

Notation "'do' x <- m ; k" := (bind m (fun x => k))
  (at level 10, x name, m at level 100, k at level 200).

(** The state a method of [FileData] runs in: the receiver [this], whose
    public fields are assignable, and the world around it. *)
Record MethodState : Type := mkState {
  this : FileData;
  world : World
}.

Definition Method (A : Type) : Type := Eff MethodState A.

(** ** [FileData.save]

    [save<T = string>(): T { return "" as T; }] : the cast is erased at run
    time, the value returned is the empty string. *)
Definition save : Method string := ret "".

(** [n] successive calls [d.save(); ...; d.save()] on one descriptor; the
    values returned, most recent first. *)
Fixpoint save_times (n : nat) : Method (list string) :=
  match n with
  | O => ret []
  | S n' =>
      do rs <- save_times n';
      do r <- save;
      ret (r :: rs)
  end.

(** ** File savers *)

(** [interface IFileSaver { save(fileData, context): string | Promise<string> }]
    (README, "Custom File Saver"): a saver runs against the storage and
    yields the location, or throws. *)
Record IFileSaver : Type := mkSaver {
  saver_save : FileData -> ExecutionContext -> Eff (gmap string Buffer) string
}.

(** One invocation of a saver: the call is logged and the saver runs on the
    storage. *)
Definition invoke (s : IFileSaver) (d : FileData) (c : ExecutionContext)
  : Eff World string :=
  fun w =>
    let '(r, dk) := saver_save s d c (disk w) in
    (r, {| disk := dk; invocations := (d, c) :: invocations w |}).

(** Path join: an empty segment adds nothing. *)
Definition joinPath (a b : string) : string :=
  if decide (b = "") then a else a +:+ "/" +:+ b.

(** [new DefaultFileSaver({ prefixDirectory, customDirectory })] (README,
    "Usage"). *)
Record DefaultFileSaverOptions : Type := mkOptions {
  prefixDirectory : string;
  customDirectory : option (ExecutionContext -> string -> string)
}.

(** Modelled from the spec: [DefaultFileSaver.save] is not among the
    sources.  Section 4.4: the target directory is [prefixDirectory]
    joined with [customDirectory(context, originalDirectory)] when that
    function is provided and with [originalDirectory] (empty by default)
    otherwise; the buffer is written to [directory/fullFileName] and that
    path is the location. *)
Definition DefaultFileSaver (o : DefaultFileSaverOptions) : IFileSaver :=
  {| saver_save := fun d c dk =>
       let originalDirectory := "" in
       let sub := match customDirectory o with
                  | Some f => f c originalDirectory
                  | None => originalDirectory
                  end in
       let path := joinPath (joinPath (prefixDirectory o) sub) (fileNameFull d) in
       (Normal path, <[path := buffer d]> dk) |}.

(** ** The interception pipeline *)

(** [new FormdataInterceptor({ customFileName, fileSaver })] (README,
    "Usage"). *)
Record FormdataOptions : Type := mkFormdataOptions {
  customFileName : option (ExecutionContext -> string -> string);
  fileSaver : IFileSaver
}.

(** Modelled from the spec: a file part of the multipart payload (section
    4.1, step 1). *)
Record FilePart : Type := mkFilePart {
  part_name : string;
  part_filename : string;
  part_encoding : string;
  part_mimeType : MimeType;
  part_content : Buffer
}.

Definition dot : ascii := "."%char.

Definition isDot (c : ascii) : bool := Ascii.eqb c dot.

Fixpoint hasDot (s : string) : bool :=
  match s with
  | EmptyString => false
  | String c r => isDot c || hasDot r
  end.

(** The text that follows the last ['.'] of [s]; [None] when [s] has no
    ['.']. *)
Fixpoint afterLastDot (s : string) : option string :=
  match s with
  | EmptyString => None
  | String c r =>
      match afterLastDot r with
      | Some e => Some e
      | None => if isDot c then Some r else None
      end
  end.

(** Modelled from the spec: the interceptor is not among the sources.
    Section 4.1, step 2: "derive the extension from the original filename
    (the portion after the last [.], empty if none)". *)
Definition extensionOf (originalName : string) : string :=
  default "" (afterLastDot originalName).

(** Modelled from the spec: the interceptor is not among the sources.
    Section 4.1, step 2: the assigned name is the naming function's result
    on [(context, originalFileName)], the original file name when no naming
    function is configured; the full name is [assignedName.extension]
    (section 6); the byte size is the length of the content (section 3);
    the descriptor is built by the [FileData] constructor. *)
Definition describeFile (o : FormdataOptions) (c : ExecutionContext)
    (p : FilePart) : FileData :=
  let extension := extensionOf (part_filename p) in
  let assigned := match customFileName o with
                  | Some f => f c (part_filename p)
                  | None => part_filename p
                  end in
  FileData_new (part_filename p) assigned (assigned +:+ "." +:+ extension)
    (part_encoding p) (part_mimeType p) extension
    (byteLength (part_content p)) (part_content p).

(** The spec's wording of the extension, as a relation: [ext] is what
    follows the last ['.'] of [name], and is empty when [name] has none. *)
Definition isExtensionOf (name ext : string) : Prop :=
  if hasDot name
  then exists stem, name = stem +:+ String dot ext /\ hasDot ext = false
  else ext = "".

(** ** Validation predicates *)

(** The run-time value of a decorated field element: what a multipart
    field can hold after interception, and what a handler may find there
    instead. *)
Inductive Value : Type :=
| VUndefined
| VString (s : string)
| VObject (props : list (string * string))
| VFile (d : FileData).

(** The decorators of the README, "File Validation". *)
Inductive Validator : Type :=
| IsFileData
| HasMimeType (allowed : list MimeType)
| MinFileSize (minimum : Z)
| MaxFileSize (maximum : Z).

(** Modelled from the spec: the decorators are not among the sources.
    Section 4.5: presence passes iff the value is a descriptor instance;
    MIME membership passes iff the descriptor's MIME type is in the
    allow-set; the size bounds are inclusive. *)
Definition passes (v : Validator) (x : Value) : bool :=
  match v, x with
  | IsFileData, VFile _ => true
  | HasMimeType allowed, VFile d => bool_decide (mimetype d ∈ allowed)
  | MinFileSize minimum, VFile d => (minimum <=? fileSize d)%Z
  | MaxFileSize maximum, VFile d => (fileSize d <=? maximum)%Z
  | _, _ => false
  end.

(** Whether a validator has a descriptor to look at in [xs]. *)
Definition isEmptySequence (xs : list Value) : bool :=
  match xs with
  | [] => true
  | _ :: _ => false
  end.

(** Modelled from the spec: the decorators are not among the sources.
    Section 4.5, [each: true]: the predicate must pass for every element of
    the sequence; an empty sequence passes the MIME and size checks and
    fails the presence check, there being no descriptor to validate. *)
Definition passesEach (v : Validator) (xs : list Value) : bool :=
  match v with
  | IsFileData => negb (isEmptySequence xs) && forallb (passes v) xs
  | HasMimeType _ | MinFileSize _ | MaxFileSize _ => forallb (passes v) xs
  end.

(** ** Sample data *)

Definition pngMagic : Buffer := [x89; x50; x4e; x47]%byte.

(** An upload [a.png] named by the README's [customFileName]. *)
Definition samplePng : FileData :=
  FileData_new "a.png" "1700000000-a.png" "1700000000-a.png.png" "7bit"
    "image/png" "png" 4 pngMagic.

(** A descriptor whose declared size is not the size of its content. *)
Definition oversized : FileData :=
  FileData_new "a.png" "a" "a.png" "7bit" "image/png" "png" 5 [].

Definition rootContext : ExecutionContext := {| route := "/" |}.

Definition emptyWorld : World := {| disk := ∅; invocations := [] |}.

(** The saver of the README: [new DefaultFileSaver({ prefixDirectory:
    "./public", customDirectory: (context, dir) => dir })]. *)
Definition publicSaver : IFileSaver :=
  DefaultFileSaver
    {| prefixDirectory := "./public";
       customDirectory := Some (fun _ originalDirectory => originalDirectory) |}.

Definition sampleState : MethodState :=
  {| this := samplePng; world := emptyWorld |}.

(** ** The spec's readings of [save] *)

(** [save()] on [st] is one invocation of the saver [s]: it returns what
    the saver returns and leaves the world as that one invocation does. *)
Definition saveUsesSaver (s : IFileSaver) (c : ExecutionContext)
    (st : MethodState) : Prop :=
  fst (save st) = fst (invoke s (this st) c (world st)) /\
  world (snd (save st)) = snd (invoke s (this st) c (world st)).



(** [location] reads a persisted-location value off a descriptor: absent
    before [save()], and the returned location once [save()] has run. *)
Definition carriesLocation (location : FileData -> option string)
    (st : MethodState) : Prop :=
  location (this st) = None /\
  exists l, fst (save st) = Normal l /\
            location (this (snd (save st))) = Some l.

(** ** The README's naming function and controller *)

Definition dash : ascii := "-"%char.

Fixpoint hasDash (s : string) : bool :=
  match s with
  | EmptyString => false
  | String c r => Ascii.eqb c dash || hasDash r
  end.

(** What [Date.now()] can return: a time value, an integral number of
    milliseconds within 8.64e15 of the epoch. *)
Definition isTimeValue (now : Z) : Prop :=
  (-8640000000000000 <= now <= 8640000000000000)%Z.

(** A number inside a template literal: for an integer of magnitude below
    1e21, its decimal digits, after a ['-'] when it is negative. *)
Definition numberToString (n : Z) : string :=
  DecimalString.NilEmpty.string_of_int (Z.to_int n).

Module Readme.

(** "Usage": [customFileName(context, originalFileName) { return
    `${Date.now()}-${originalFileName}`; }], the clock reading passed in as
    [now]. *)
Definition customFileName (now : Z) (context : ExecutionContext)
    (originalFileName : string) : string :=
  numberToString now +:+ "-" +:+ originalFileName.

(** "File Validation": [class CreateDto { files: FileData[]; file: FileData }]. *)
Record CreateDto : Type := mkCreateDto {
  files : list FileData;
  file : FileData
}.

(** What a handler runs in: the request body it was given and the world. *)
Record HandlerState : Type := mkHandlerState {
  body : CreateDto;
  outside : World
}.

(** [createDto.file.m()]: the method runs with [createDto.file] as its
    receiver. *)
Definition onFile {A : Type} (m : Method A) : Eff HandlerState A :=
  fun hs =>
    let '(r, st) := m {| this := file (body hs); world := outside hs |} in
    (r, {| body := {| files := files (body hs); file := this st |};
           outside := world st |}).

(** [ds.map((file) => file.m())]: the method runs on each element in
    order, each call starting in the world the previous one left; a throw
    ends the iteration.  Yields the array of results together with the
    elements as the calls left them. *)
Fixpoint mapMethod {A : Type} (m : Method A) (ds : list FileData) (w : World)
  : Completion (list A) * (list FileData * World) :=
  match ds with
  | [] => (Normal [], ([], w))
  | d :: ds' =>
      match m {| this := d; world := w |} with
      | (Normal a, st) =>
          match mapMethod m ds' (world st) with
          | (Normal rs, (ds'', w')) => (Normal (a :: rs), (this st :: ds'', w'))
          | (Throw e, (ds'', w')) => (Throw e, (this st :: ds'', w'))
          end
      | (Throw e, st) => (Throw e, (this st :: ds', world st))
      end
  end.

(** [createDto.files.map((file) => file.m())]. *)
Definition onFiles {A : Type} (m : Method A) : Eff HandlerState (list A) :=
  fun hs =>
    let '(r, (ds, w)) := mapMethod m (files (body hs)) (outside hs) in
    (r, {| body := {| files := ds; file := file (body hs) |}; outside := w |}).

(** "Controller": [getHello(@Body() createDto) { createDto.file.save();
    createDto.files.map((file) => file.save()); }]; the handler returns
    [undefined]. *)
Definition getHello : Eff HandlerState unit :=
  do single <- onFile save;
  do many <- onFiles save;
  ret tt.

End Readme.

(** * Properties *)

(** ** [save] and the state it runs in *)

Lemma save_eq (st : MethodState) : save st = (Normal "", st).
Proof. reflexivity. Qed.

Lemma save_times_eq (n : nat) (st : MethodState) :
  save_times n st = (Normal (replicate n ""), st).
Proof.
  induction n as [|n IH]; simpl.
  - reflexivity.
  - unfold bind. rewrite IH, save_eq. reflexivity.
Qed.

Lemma invoke_logs (s : IFileSaver) (d : FileData) (c : ExecutionContext)
    (w : World) :
  invocations (snd (invoke s d c w)) = (d, c) :: invocations w.
Proof.
  unfold invoke. destruct (saver_save s d c (disk w)) as [r dk]. reflexivity.
Qed.

(** C1: at [samplePng], with the README's saver configured and an empty
    storage, one invocation of the saver stores the buffer at
    [./public/1700000000-a.png.png] and returns that path; [save()]
    returns the empty string, invokes no saver and stores nothing, so it
    is not that invocation. *)
Lemma save_ignores_public_saver :
  fst (invoke publicSaver samplePng rootContext emptyWorld)
    = Normal "./public/1700000000-a.png.png" /\
  disk (snd (invoke publicSaver samplePng rootContext emptyWorld))
    !! "./public/1700000000-a.png.png" = Some pngMagic /\
  fst (save sampleState) = Normal "" /\
  invocations (world (snd (save sampleState))) = [] /\
  disk (world (snd (save sampleState))) = ∅ /\
  ~ saveUsesSaver publicSaver rootContext sampleState.
Proof.
  split; [reflexivity|]. split; [apply lookup_insert_eq|].
  split; [reflexivity|]. split; [reflexivity|]. split; [reflexivity|].
  intros [H _]. vm_compute in H. discriminate H.
Qed.

(** ** The constructor *)

(** C2, as stated, fails: the constructor yields [oversized], whose
    [fileSize] is 5 while its buffer holds no byte. *)
Lemma oversized_fileSize_mismatch :
  fileSize oversized = 5%Z /\ byteLength (buffer oversized) = 0%Z /\
  fileSize oversized <> byteLength (buffer oversized).
Proof. repeat split. discriminate. Qed.

(** C2, amended: every descriptor produced by the interception pipeline
    holds the content of its part as [buffer] and the exact byte length of
    that buffer as [fileSize], also after any number of [save()] calls;
    the constructor alone does not give this. *)
Theorem describeFile_fileSize (o : FormdataOptions) (c : ExecutionContext)
    (p : FilePart) (n : nat) (w : World) :
  let d := describeFile o c p in
  let d' := this (snd (save_times n {| this := d; world := w |})) in
  buffer d = part_content p /\
  fileSize d = byteLength (buffer d) /\
  fileSize d' = byteLength (buffer d').
Proof. cbv zeta. rewrite save_times_eq. simpl. repeat split. Qed.

(** C3: [save()] leaves every field of the descriptor as it was, however
    many times it is called. *)
Theorem save_preserves_fields (n : nat) (st : MethodState) :
  let d' := this (snd (save_times n st)) in
  originalFileName d' = originalFileName (this st) /\
  fileName d' = fileName (this st) /\
  fileNameFull d' = fileNameFull (this st) /\
  encoding d' = encoding (this st) /\
  mimetype d' = mimetype (this st) /\
  fileExtension d' = fileExtension (this st) /\
  fileSize d' = fileSize (this st) /\
  buffer d' = buffer (this st).
Proof. rewrite save_times_eq; simpl. repeat split. Qed.

(** C4, as stated, fails: nothing that can be read off [samplePng] is
    absent before [save()] and holds the returned location after it. *)
Lemma samplePng_carries_no_location :
  ~ exists location : FileData -> option string,
      carriesLocation location sampleState.
Proof.
  intros [location [Hbefore [l [_ Hafter]]]].
  rewrite save_eq in Hafter. cbn [snd] in Hafter.
  rewrite Hbefore in Hafter. discriminate Hafter.
Qed.

(** C4, amended: a descriptor carries no persisted-location value: it
    is its eight constructor fields and nothing else, and whatever is read
    off it reads the same after any number of [save()] calls, so no
    location is ever set on it (zero times, hence at most once). *)
Theorem descriptor_carries_no_location {A : Type} (observe : FileData -> A)
    (n : nat) (st : MethodState) :
  this st = FileData_new (originalFileName (this st)) (fileName (this st))
              (fileNameFull (this st)) (encoding (this st))
              (mimetype (this st)) (fileExtension (this st))
              (fileSize (this st)) (buffer (this st)) /\
  observe (this (snd (save_times n st))) = observe (this st).
Proof.
  split.
  - destruct (this st); reflexivity.
  - rewrite save_times_eq. reflexivity.
Qed.

(** ** The extension of an uploaded file *)

Lemma afterLastDot_None (s : string) :
  afterLastDot s = None <-> hasDot s = false.
Proof.
  induction s as [|c r IH]; simpl.
  - tauto.
  - destruct (afterLastDot r) as [e|] eqn:Hr.
    + split; [discriminate|].
      intros H. apply orb_false_iff in H as [_ H].
      apply IH in H. discriminate H.
    + destruct (isDot c); simpl.
      * split; discriminate.
      * split; intros _; [apply IH|]; reflexivity.
Qed.

Lemma isDot_eq (c : ascii) : isDot c = true -> c = dot.
Proof. apply Ascii.eqb_eq. Qed.

Lemma afterLastDot_Some (s e : string) :
  afterLastDot s = Some e ->
  exists stem, s = stem +:+ String dot e /\ hasDot e = false.
Proof.
  revert e. induction s as [|c r IH]; simpl; intros e H.
  - discriminate H.
  - destruct (afterLastDot r) as [e'|] eqn:Hr.
    + injection H as <-.
      destruct (IH e' eq_refl) as [stem [-> Hno]].
      exists (String c stem). split; [reflexivity|exact Hno].
    + destruct (isDot c) eqn:Hc; [|discriminate H].
      injection H as <-. apply isDot_eq in Hc as ->.
      exists "". split; [reflexivity|]. apply afterLastDot_None, Hr.
Qed.

Lemma afterLastDot_append (stem e : string) :
  hasDot e = false -> afterLastDot (stem +:+ String dot e) = Some e.
Proof.
  intros Hno. induction stem as [|c stem IH]; simpl.
  - apply afterLastDot_None in Hno. rewrite Hno. reflexivity.
  - simpl in IH. rewrite IH. reflexivity.
Qed.

Lemma extensionOf_isExtensionOf (name : string) :
  isExtensionOf name (extensionOf name).
Proof.
  unfold isExtensionOf, extensionOf.
  destruct (hasDot name) eqn:Hd.
  - destruct (afterLastDot name) as [e|] eqn:He.
    + apply afterLastDot_Some in He. exact He.
    + apply afterLastDot_None in He. congruence.
  - apply afterLastDot_None in Hd. rewrite Hd. reflexivity.
Qed.

Example extensionOf_samples :
  extensionOf "a.png" = "png" /\
  extensionOf "archive.tar.gz" = "gz" /\
  extensionOf "README" = "" /\
  extensionOf "notes." = "" /\
  extensionOf ".env" = "env".
Proof. repeat split. Qed.

(** The spec's wording determines the extension. *)
Lemma isExtensionOf_unique (name ext : string) :
  isExtensionOf name ext -> ext = extensionOf name.
Proof.
  unfold isExtensionOf, extensionOf.
  destruct (hasDot name) eqn:Hd.
  - intros [stem [-> Hno]]. rewrite afterLastDot_append by exact Hno. reflexivity.
  - intros ->. apply afterLastDot_None in Hd. rewrite Hd. reflexivity.
Qed.

(** C5: a descriptor produced by the interception pipeline keeps the
    original file name of its part, and its [fileExtension] is what follows
    the last ['.'] of that name, the empty string when the name has no
    ['.']. *)
Theorem describeFile_extension (o : FormdataOptions) (c : ExecutionContext)
    (p : FilePart) :
  originalFileName (describeFile o c p) = part_filename p /\
  isExtensionOf (originalFileName (describeFile o c p))
                (fileExtension (describeFile o c p)).
Proof.
  split; [reflexivity|]. simpl. apply extensionOf_isExtensionOf.
Qed.

(** ** Failure of the saver *)



(** ** Validation of an empty sequence *)

Lemma passesEach_nonempty (v : Validator) (x : Value) (xs : list Value) :
  passesEach v (x :: xs) = forallb (passes v) (x :: xs).
Proof. destruct v; reflexivity. Qed.

(** C7: with [each: true] on an empty sequence, the minimum-size,
    maximum-size and MIME-type predicates pass, and the presence predicate
    fails. *)
Theorem passesEach_empty (minimum maximum : Z) (allowed : list MimeType) :
  passesEach (MinFileSize minimum) [] = true /\
  passesEach (MaxFileSize maximum) [] = true /\
  passesEach (HasMimeType allowed) [] = true /\
  passesEach IsFileData [] = false.
Proof. repeat split. Qed.

(** ** [save] as written *)

(** C8: whatever the fields of the descriptor and however many times
    [save()] has been called before, [save()] returns the empty string,
    logs no saver invocation, writes nothing, and returns what it returns
    on any other descriptor. *)
Theorem save_returns_empty_string (d : FileData) (w : World) (n : nat) :
  let st := snd (save_times n {| this := d; world := w |}) in
  save st = (Normal "", st) /\
  invocations (world (snd (save st))) = invocations w /\
  disk (world (snd (save st))) = disk w /\
  forall (d' : FileData) (w' : World),
    fst (save {| this := d'; world := w' |}) = fst (save st).
Proof. rewrite save_times_eq; simpl. repeat split. Qed.

(** C9: [save()] returns on every descriptor and never throws, whatever
    the eight fields hold. *)
Theorem save_total_never_throws
    (ofn fn fnf enc : string) (mt : MimeType) (ext : string)
    (size : Z) (buf : Buffer) (w : World) :
  let st := {| this := FileData_new ofn fn fnf enc mt ext size buf;
               world := w |} in
  (exists v st', save st = (Normal v, st')) /\
  forall e, fst (save st) <> Throw e.
Proof.
  intros st. split.
  - exists "", st. apply save_eq.
  - intros e. rewrite save_eq. discriminate.
Qed.

(** C10: the constructor stores its eight arguments as they are, with no
    validation and no normalisation: every field of the new descriptor is
    the argument of the same name. *)
Theorem FileData_new_stores_arguments
    (ofn fn fnf enc : string) (mt : MimeType) (ext : string)
    (size : Z) (buf : Buffer) :
  exists d, FileData_new ofn fn fnf enc mt ext size buf = d /\
    originalFileName d = ofn /\
    fileName d = fn /\
    fileNameFull d = fnf /\
    encoding d = enc /\
    mimetype d = mt /\
    fileExtension d = ext /\
    fileSize d = size /\
    buffer d = buf.
Proof. eexists. split; [reflexivity|]. repeat split. Qed.

(** ** The README's naming function *)

Lemma hasDot_digits (d : Decimal.uint) :
  hasDot (DecimalString.NilEmpty.string_of_uint d) = false.
Proof. induction d; simpl; auto. Qed.

Lemma hasDash_digits (d : Decimal.uint) :
  hasDash (DecimalString.NilEmpty.string_of_uint d) = false.
Proof. induction d; simpl; auto. Qed.

Lemma digits_empty (d : Decimal.uint) :
  DecimalString.NilEmpty.string_of_uint d = "" -> d = Decimal.Nil.
Proof. destruct d; simpl; intros H; [reflexivity | discriminate H ..]. Qed.

Lemma digits_inj (d1 d2 : Decimal.uint) :
  DecimalString.NilEmpty.string_of_uint d1
    = DecimalString.NilEmpty.string_of_uint d2 -> d1 = d2.
Proof.
  intros H. apply (f_equal DecimalString.NilEmpty.uint_of_string) in H.
  rewrite !DecimalString.NilEmpty.usu in H. injection H as ->. reflexivity.
Qed.

Lemma numberToString_inj (a b : Z) :
  numberToString a = numberToString b -> a = b.
Proof.
  unfold numberToString. intros H.
  apply (f_equal DecimalString.NilEmpty.int_of_string) in H.
  rewrite !DecimalString.NilEmpty.isi in H. injection H as H.
  rewrite <- (DecimalZ.of_to a), <- (DecimalZ.of_to b), H. reflexivity.
Qed.

(** The digits of a number: never empty, and [numberToString] is these
    digits, behind a ['-'] exactly for a negative number. *)
Lemma numberToString_shape (n : Z) :
  exists d, d <> Decimal.Nil /\
    numberToString n
      = if (n <? 0)%Z
        then String dash (DecimalString.NilEmpty.string_of_uint d)
        else DecimalString.NilEmpty.string_of_uint d.
Proof.
  destruct n as [|p|p].
  - exists Decimal.zero. split; [discriminate | reflexivity].
  - exists (Pos.to_uint p). split; [apply DecimalPos.Unsigned.to_uint_nonnil | reflexivity].
  - exists (Pos.to_uint p). split; [apply DecimalPos.Unsigned.to_uint_nonnil | reflexivity].
Qed.

Lemma numberToString_hasDot (n : Z) : hasDot (numberToString n) = false.
Proof.
  destruct (numberToString_shape n) as [d [_ ->]].
  destruct (n <? 0)%Z; simpl; apply hasDot_digits.
Qed.

Lemma append_dash_inj (p1 p2 r1 r2 : string) :
  hasDash p1 = false -> hasDash p2 = false ->
  p1 +:+ String dash r1 = p2 +:+ String dash r2 ->
  p1 = p2 /\ r1 = r2.
Proof.
  revert p2. induction p1 as [|c1 p1 IH]; intros [|c2 p2]; simpl; intros H1 H2 H.
  - injection H as ->. split; reflexivity.
  - injection H as <- _. rewrite Ascii.eqb_refl in H2. discriminate H2.
  - injection H as -> _. rewrite Ascii.eqb_refl in H1. discriminate H1.
  - injection H as -> H.
    apply orb_false_iff in H1 as [_ H1]. apply orb_false_iff in H2 as [_ H2].
    destruct (IH p2 H1 H2 H) as [-> ->]. split; reflexivity.
Qed.

Lemma digits_head_not_dash (d : Decimal.uint) (s r : string) :
  d <> Decimal.Nil ->
  DecimalString.NilEmpty.string_of_uint d +:+ s <> String dash r.
Proof.
  intros Hd H.
  destruct (DecimalString.NilEmpty.string_of_uint d) as [|c t] eqn:E.
  - apply digits_empty in E. contradiction.
  - pose proof (hasDash_digits d) as Hno. rewrite E in Hno. simpl in Hno, H.
    injection H as -> _. rewrite Ascii.eqb_refl in Hno. discriminate Hno.
Qed.

Lemma customFileName_eq (now : Z) (c : ExecutionContext) (name : string) :
  Readme.customFileName now c name = numberToString now +:+ String dash name.
Proof. reflexivity. Qed.

Lemma afterLastDot_prefix (p s : string) :
  hasDot p = false ->
  hasDot (p +:+ s) = hasDot s /\ afterLastDot (p +:+ s) = afterLastDot s.
Proof.
  induction p as [|c p IH]; simpl; intros H.
  - split; reflexivity.
  - apply orb_false_iff in H as [Hc Hp]. destruct (IH Hp) as [IH1 IH2].
    simpl in IH1, IH2. rewrite Hc, IH1, IH2. split; [reflexivity|].
    destruct (afterLastDot s); reflexivity.
Qed.

(** X1: two calls of the README's [customFileName] return the same name
    exactly when they were made at the same clock reading with the same
    original name: names given at different milliseconds, or to different
    original names, differ. *)
Theorem customFileName_injective (now1 now2 : Z) (c1 c2 : ExecutionContext)
    (name1 name2 : string) :
  isTimeValue now1 -> isTimeValue now2 ->
  (Readme.customFileName now1 c1 name1 = Readme.customFileName now2 c2 name2
   <-> now1 = now2 /\ name1 = name2).
Proof.
  intros _ _. split; [|intros [-> ->]; reflexivity].
  rewrite !customFileName_eq. intros H.
  destruct (numberToString_shape now1) as [d1 [Hd1 E1]].
  destruct (numberToString_shape now2) as [d2 [Hd2 E2]].
  assert (numberToString now1 = numberToString now2 /\ name1 = name2) as [Hn Hname].
  { rewrite E1, E2 in *.
    destruct (now1 <? 0)%Z, (now2 <? 0)%Z; simpl in H.
    - injection H as H.
      apply append_dash_inj in H as [-> ->]; auto using hasDash_digits.
    - symmetry in H. apply digits_head_not_dash in H; [destruct H | exact Hd2].
    - apply digits_head_not_dash in H; [destruct H | exact Hd1].
    - apply append_dash_inj in H as [-> ->]; auto using hasDash_digits. }
  split; [apply numberToString_inj, Hn | exact Hname].
Qed.

Lemma customFileName_injective_witness :
  isTimeValue 1700000000000 /\ isTimeValue 1700000000001 /\
  Readme.customFileName 1700000000000 rootContext "a.png"
    <> Readme.customFileName 1700000000001 rootContext "a.png".
Proof.
  assert (isTimeValue 1700000000000) as H1 by (unfold isTimeValue; lia).
  assert (isTimeValue 1700000000001) as H2 by (unfold isTimeValue; lia).
  split; [exact H1|]. split; [exact H2|].
  intros H.
  apply (customFileName_injective 1700000000000 1700000000001
           rootContext rootContext "a.png" "a.png" H1 H2) in H.
  destruct H as [H _]. discriminate H.
Defined.

(** X2: the README's [customFileName] puts no ['.'] in front of the
    original name: the assigned name has a ['.'] exactly when the original
    name has one, and what follows its last ['.'] is what follows the last
    ['.'] of the original name. *)
Theorem customFileName_keeps_extension (now : Z) (c : ExecutionContext)
    (name : string) :
  isTimeValue now ->
  hasDot (Readme.customFileName now c name) = hasDot name /\
  afterLastDot (Readme.customFileName now c name) = afterLastDot name.
Proof.
  intros _. rewrite customFileName_eq.
  destruct (afterLastDot_prefix (numberToString now) (String dash name)
              (numberToString_hasDot now)) as [-> ->].
  split; [reflexivity|]. simpl. destruct (afterLastDot name); reflexivity.
Qed.

Lemma customFileName_keeps_extension_witness :
  isTimeValue 1700000000000 /\
  hasDot (Readme.customFileName 1700000000000 rootContext "archive.tar.gz")
    = hasDot "archive.tar.gz" /\
  afterLastDot (Readme.customFileName 1700000000000 rootContext "archive.tar.gz")
    = afterLastDot "archive.tar.gz".
Proof.
  split; [unfold isTimeValue; lia|].
  apply (customFileName_keeps_extension 1700000000000 rootContext
           "archive.tar.gz").
  unfold isTimeValue; lia.
Defined.

(** ** The README's controller *)

Lemma mapMethod_save (ds : list FileData) (w : World) :
  Readme.mapMethod save ds w = (Normal (replicate (length ds) ""), (ds, w)).
Proof.
  induction ds as [|d ds IH]; simpl.
  - reflexivity.
  - rewrite IH. reflexivity.
Qed.

Lemma onFile_save (hs : Readme.HandlerState) :
  Readme.onFile save hs = (Normal "", hs).
Proof. destruct hs as [[fs f] w]. reflexivity. Qed.

Lemma onFiles_save (hs : Readme.HandlerState) :
  Readme.onFiles save hs
    = (Normal (replicate (length (Readme.files (Readme.body hs))) ""), hs).
Proof.
  destruct hs as [[fs f] w]. unfold Readme.onFiles; simpl.
  rewrite mapMethod_save. reflexivity.
Qed.

(** X3: [createDto.files.map((file) => file.save())] completes normally
    with one empty string per file, in an array as long as [files] (empty
    when there is no file), and leaves every descriptor, the storage and
    the invocation log as they were. *)
Theorem files_map_save (hs : Readme.HandlerState) :
  exists rs,
    Readme.onFiles save hs = (Normal rs, hs) /\
    length rs = length (Readme.files (Readme.body hs)) /\
    Forall (fun r => r = "") rs.
Proof.
  exists (replicate (length (Readme.files (Readme.body hs))) "").
  split; [apply onFiles_save|]. split; [apply length_replicate|].
  apply Forall_forall. intros r Hr. apply elem_of_replicate in Hr. tauto.
Qed.

(** X4: the README's handler [getHello], given a body that is a
    [CreateDto] (a descriptor in [file], an array of descriptors in
    [files]) whose descriptors have the [save] the class defines, returns
    without throwing and leaves the body, the storage and the invocation
    log as they were: no file is written and no saver is invoked. *)
Theorem getHello_persists_nothing (hs : Readme.HandlerState) :
  Readme.getHello hs = (Normal tt, hs) /\
  disk (Readme.outside (snd (Readme.getHello hs))) = disk (Readme.outside hs) /\
  invocations (Readme.outside (snd (Readme.getHello hs)))
    = invocations (Readme.outside hs).
Proof.
  assert (Readme.getHello hs = (Normal tt, hs)) as ->.
  { unfold Readme.getHello, bind. rewrite onFile_save, onFiles_save. reflexivity. }
  repeat split.
Qed.
